(** * botgarden-core: the bot template's webhook server

    A shallow embedding of [bot-template/app/__main__.py]: the module-level
    configuration, the echo handler, the health endpoint and the [main]
    coroutine, followed by the properties of the start-up sequence and of
    the two handlers.

    The aiogram / aiohttp / asyncio calls are external collaborators.  Their
    outcome is read from a [World] oracle, and every call the program issues
    is recorded, in program order, in a trace of [Event]s. *)

From Stdlib Require Import ZArith Ascii String List Lia Bool.
From stdpp Require Import base strings gmap pretty.

Local Open Scope string_scope.
Local Open Scope Z_scope.

(** ** Python strings *)

Module PyStr.

(** [str.isspace] on the ASCII range, as [int()] uses it to strip its
    argument: TAB..CR, FS..US and SPACE. *)
Definition isspace (c : ascii) : bool :=
  let n := nat_of_ascii c in
  ((9 <=? n) && (n <=? 13) || (28 <=? n) && (n <=? 32))%nat.

Definition digit_value (c : ascii) : option Z :=
  let n := nat_of_ascii c in
  if ((48 <=? n) && (n <=? 57))%nat then Some (Z.of_nat n - 48) else None.

Fixpoint lstrip (s : string) : string :=
  match s with
  | String c rest => if isspace c then lstrip rest else s
  | EmptyString => s
  end.

Fixpoint all_space (s : string) : bool :=
  match s with
  | String c rest => isspace c && all_space rest
  | EmptyString => true
  end.

(** The digit scan of [int(s)] in base 10: digits, with single underscores
    allowed between two digits.  [prev_us] tells that the previous
    character was an underscore; the scan stops at the first character
    that is neither, and fails when it stops right after an underscore. *)
Fixpoint scan_digits (acc : Z) (prev_us : bool) (s : string)
  : option (Z * string) :=
  match s with
  | String c rest =>
      match digit_value c with
      | Some d => scan_digits (10 * acc + d) false rest
      | None =>
          if Ascii.eqb c "_"%char
          then (if prev_us then None else scan_digits acc true rest)
          else (if prev_us then None else Some (acc, s))
      end
  | EmptyString => if prev_us then None else Some (acc, s)
  end.

(** The optional sign in front of the digits. *)
Definition split_sign (s : string) : bool * string :=
  match s with
  | String c r =>
      if Ascii.eqb c "+" then (false, r)
      else if Ascii.eqb c "-" then (true, r)
      else (false, s)
  | EmptyString => (false, s)
  end.

(** The digits and what follows them: the first character is a digit, and
    only blanks are left after the scan. *)
Definition magnitude (s : string) : option Z :=
  match s with
  | String c _ =>
      match digit_value c with
      | Some _ =>
          match scan_digits 0 false s with
          | Some (n, rest) => if all_space rest then Some n else None
          | None => None
          end
      | None => None
      end
  | EmptyString => None
  end.

(** [int(s)] for a text argument and the default base: leading blanks, an
    optional sign, at least one digit right after it, trailing blanks, and
    nothing else.  [None] stands for [ValueError].  Values are ASCII text;
    digits and blanks outside ASCII are not modelled. *)
Definition int (s : string) : option Z :=
  let '(neg, s2) := split_sign (lstrip s) in
  match magnitude s2 with
  | Some n => Some (if neg then - n else n)
  | None => None
  end.

(** [format(v, "")] inside an f-string, for a value that is a [str] or
    [None]. *)
Definition format (v : option string) : string :=
  match v with
  | Some s => s
  | None => "None"
  end.

(** Truth value of [Optional[str]]: [None] and the empty text are false. *)
Definition truthy (v : option string) : bool :=
  match v with
  | Some (String _ _) => true
  | _ => false
  end.



(** [needle in hay]. *)
Definition contains (needle hay : string) : Prop :=
  exists pre post, hay = pre +:+ needle +:+ post.

End PyStr.

(** ** The process environment *)

Module os.
Definition getenv (env : gmap string string) (k : string) : option string :=
  env !! k.
Definition getenv_default (env : gmap string string) (k d : string) : string :=
  default d (env !! k).
End os.

(** ** Effects: outcomes of the external calls, state and trace *)

Inductive Exn :=
| ValueError
| TokenValidationError
| TelegramAPIError
| RunnerSetupError
| OSError
| CancelledError.

(** The HTTP client session of the bot, created on the first API call. *)
Inductive Session := NotCreated | Open | Closed.

Record St := mkSt { session : Session }.

Inductive RouteHandler := Health_check | Webhook_handle.
Inductive Hook := Emit_startup | Emit_shutdown | Close_bot_session.

Record Route := mkRoute {
  r_method : string;
  r_path : string;
  r_handler : RouteHandler
}.

Record Application := mkApplication {
  routes : list Route;
  on_startup : list Hook;
  on_shutdown : list Hook
}.

Inductive Event :=
| EvLog (msg : string)
| EvBotInit (token : option string) (ok : bool)
| EvSetWebhook (url : string) (drop_pending_updates : bool) (ok : bool)
| EvRunnerSetup (app : Application) (ok : bool)
| EvSiteStart (host : string) (port : Z) (ok : bool)
| EvSendMessage (chat_id : Z) (text : string) (ok : bool)
| EvSessionClose.

(** What the platform, the network and the operating system answer.  A
    result [None] is success, [Some e] is the exception the call raises. *)
Record World := mkWorld {
  token_valid : string -> bool;
  set_webhook_result : string -> option Exn;
  runner_setup_result : option Exn;
  site_start_result : Z -> option Exn;
  send_result : Z -> string -> option Exn;
  (** what ends [await asyncio.Future()]; [None]: nothing ever does *)
  wait_result : option Exn
}.

Inductive Res (A : Type) :=
| Ok (a : A)
| Raise (e : Exn)
| Forever.
Arguments Ok {A} a.
Arguments Raise {A} e.
Arguments Forever {A}.

(** A computation reads the world, threads the state and appends to the
    trace; it returns, raises, or never comes back. *)
Definition M (A : Type) : Type := World -> St -> Res A * St * list Event.

Definition ret {A} (a : A) : M A := fun _ st => (Ok a, st, []).

Definition bind {A B} (c : M A) (k : A -> M B) : M B :=
  fun w st =>
    match c w st with
    | (Ok a, st1, tr1) =>
        let '(r, st2, tr2) := k a w st1 in (r, st2, (tr1 ++ tr2)%list)
    | (Raise e, st1, tr1) => (Raise e, st1, tr1)
    | (Forever, st1, tr1) => (Forever, st1, tr1)
    end.

Notation "x <- c ;; k" := (bind c (fun x => k))
  (at level 100, c at next level, right associativity).
Notation "c ;; k" := (bind c (fun _ => k))
  (at level 100, right associativity).

Definition raise {A} (e : Exn) : M A := fun _ st => (Raise e, st, []).
Definition emit (ev : Event) : M unit := fun _ st => (Ok tt, st, [ev]).
Definition ask : M World := fun w st => (Ok w, st, []).
Definition get : M St := fun _ st => (Ok st, st, []).
Definition put (st : St) : M unit := fun _ _ => (Ok tt, st, []).

(** [try: body finally: fin].  The [finally] block runs when the body
    returns or raises, and the body's exception is raised again after it;
    a body that never comes back never reaches it. *)
Definition try_finally {A} (body : M A) (fin : M unit) : M A :=
  fun w st =>
    match body w st with
    | (Ok a, st1, tr1) =>
        let '(r, st2, tr2) := fin w st1 in
        (match r with Ok _ => Ok a | Raise e => Raise e | Forever => Forever end,
         st2, (tr1 ++ tr2)%list)
    | (Raise e, st1, tr1) =>
        let '(r, st2, tr2) := fin w st1 in
        (match r with Ok _ => Raise e | Raise e' => Raise e' | Forever => Forever end,
         st2, (tr1 ++ tr2)%list)
    | (Forever, st1, tr1) => (Forever, st1, tr1)
    end.

(** Result of an external call: success or the exception it raises. *)
Definition outcome (r : option Exn) : M unit :=
  match r with
  | None => ret tt
  | Some e => raise e
  end.

Definition succeeded (r : option Exn) : bool :=
  match r with None => true | Some _ => false end.

Definition result_of {A} (x : Res A * St * list Event) : Res A := x.1.1.
Definition state_of {A} (x : Res A * St * list Event) : St := x.1.2.
Definition trace_of {A} (x : Res A * St * list Event) : list Event := x.2.

(** Exit status of the interpreter: 0 when the script ends, 1 when an
    exception escapes it, none while it runs. *)
Definition exit_status {A} (r : Res A) : option Z :=
  match r with
  | Ok _ => Some 0
  | Raise _ => Some 1
  | Forever => None
  end.

(** ** The libraries *)

Module logging.
Definition info (msg : string) : M unit := emit (EvLog msg).
End logging.

Module aiogram.

Record Bot := mkBot { token : string }.

(** [Bot(token=...)]: the token is validated by the constructor; a token
    that is not a text, [None] included, is refused. *)
Definition Bot_init (tok : option string) : M Bot :=
  w <- ask ;;
  match tok with
  | Some t =>
      if token_valid w t
      then emit (EvBotInit tok true) ;; ret (mkBot t)
      else emit (EvBotInit tok false) ;; raise TokenValidationError
  | None => emit (EvBotInit tok false) ;; raise TokenValidationError
  end.

(** Every API call goes through the session, which is created when there
    is none or when it was closed. *)
Definition create_session : M unit := put (mkSt Open).

Definition set_webhook (b : Bot) (url : string) (drop_pending_updates : bool)
  : M unit :=
  w <- ask ;;
  create_session ;;
  emit (EvSetWebhook url drop_pending_updates
          (succeeded (set_webhook_result w url))) ;;
  outcome (set_webhook_result w url).

Definition send_message (b : Bot) (chat_id : Z) (text : string) : M unit :=
  w <- ask ;;
  create_session ;;
  emit (EvSendMessage chat_id text (succeeded (send_result w chat_id text))) ;;
  outcome (send_result w chat_id text).

(** [bot.session.close()]: closes the session when one is open. *)
Definition session_close (b : Bot) : M unit :=
  st <- get ;;
  emit EvSessionClose ;;
  match session st with
  | Open => put (mkSt Closed)
  | _ => ret tt
  end.

Record Message := mkMessage {
  chat_id : Z;
  text : option string
}.

(** [message.answer(text)]: a send to the chat the message came from. *)
Definition answer (b : Bot) (m : Message) (txt : string) : M unit :=
  send_message b (chat_id m) txt.

Inductive Update :=
| UpdMessage (m : Message)
| UpdOther.

Inductive MessageHandler := Echo_handler.

Record Dispatcher := mkDispatcher { message_handlers : list MessageHandler }.

Definition Dispatcher_init : Dispatcher := mkDispatcher [].

(** [@dp.message()]: registration without a filter, after the handlers
    already there. *)
Definition message (dp : Dispatcher) (h : MessageHandler) : Dispatcher :=
  mkDispatcher (message_handlers dp ++ [h]).

End aiogram.
Import aiogram.

Module web.

Record Request := mkRequest {
  method : string;
  path : string;
  payload : option Update
}.

Record Response := mkResponse {
  status : Z;
  body : string
}.

(** [web.Response(text=...)]: the status defaults to 200. *)
Definition Response_text (t : string) : Response := mkResponse 200 t.

Definition Application_init : Application := mkApplication [] [] [].

Definition add_route (app : Application) (m p : string) (h : RouteHandler)
  : Application :=
  mkApplication (routes app ++ [mkRoute m p h]) (on_startup app)
                (on_shutdown app).

(** [router.add_get(path, handler)] also answers HEAD. *)
Definition add_get (app : Application) (p : string) (h : RouteHandler)
  : Application :=
  add_route (add_route app "HEAD" p h) "GET" p h.

(** The first route of the table with this method and path. *)
Definition resolve (app : Application) (m p : string) : option RouteHandler :=
  r_handler <$>
    List.find (fun r => String.eqb (r_method r) m && String.eqb (r_path r) p)
              (routes app).

Definition runner_setup (app : Application) : M unit :=
  w <- ask ;;
  emit (EvRunnerSetup app (succeeded (runner_setup_result w))) ;;
  outcome (runner_setup_result w).

(** [TCPSite(runner, host, port).start()]: binds and listens. *)
Definition site_start (host : string) (port : Z) : M unit :=
  w <- ask ;;
  emit (EvSiteStart host port (succeeded (site_start_result w port))) ;;
  outcome (site_start_result w port).

End web.
Import web.

Module asyncio.
(** [await asyncio.Future()] on a future nobody resolves: it only ends by
    an exception thrown into it (cancellation). *)
Definition Future_await : M unit :=
  fun w st =>
    match wait_result w with
    | None => (Forever, st, [])
    | Some e => (Raise e, st, [])
    end.

Definition run {A} (c : M A) : M A := c.
End asyncio.

(** ** The module [app/__main__.py] *)

(** The module's namespace once its top level has run. *)
Record Globals := mkGlobals {
  BOT_TOKEN : option string;
  BOT_PORT : Z;
  WEBHOOK_URL : option string;
  BOT_NAME : string;
  bot : Bot;
  dp : Dispatcher
}.

Definition greeting (name : string) : string :=
  "🤖 Hello 111 from " +:+ name +:+ "! You said: ".

Definition echo_text (name : string) (txt : option string) : string :=
  greeting name +:+ PyStr.format txt.

(** [echo_handler(message)] *)
Definition echo_handler (g : Globals) (message : Message) : M unit :=
  answer (bot g) message (echo_text (BOT_NAME g) (text message)).

(** [health_check(request)] *)
Definition health_check (g : Globals) (request : Request) : M Response :=
  ret (Response_text "OK").

Definition call_message_handler (g : Globals) (h : MessageHandler)
  : Message -> M unit :=
  match h with
  | Echo_handler => echo_handler g
  end.

(** The dispatcher hands a message update to the first registered message
    handler (none of them has a filter); other updates have no handler. *)
Definition feed_update (g : Globals) (u : Update) : M unit :=
  match u with
  | UpdMessage m =>
      match message_handlers (dp g) with
      | h :: _ => call_message_handler g h m
      | [] => ret tt
      end
  | UpdOther => ret tt
  end.

(** A task started with [asyncio.create_task]: what it raises stays in the
    task. *)
Definition create_task (c : M unit) : M unit :=
  fun w st =>
    let '(r, st1, tr1) := c w st in
    (match r with Forever => Forever | _ => Ok tt end, st1, tr1).

(** [SimpleRequestHandler.handle]: the update is fed to the dispatcher in a
    background task and the request is answered at once. *)
Definition webhook_handle (g : Globals) (request : Request) : M Response :=
  match payload request with
  | Some u => create_task (feed_update g u) ;; ret (mkResponse 200 "{}")
  | None => raise ValueError
  end.

Definition call_route_handler (g : Globals) (h : RouteHandler)
  : Request -> M Response :=
  match h with
  | Health_check => health_check g
  | Webhook_handle => webhook_handle g
  end.

(** The application answering one request: the resolved route's handler,
    or 404 when no route matches. *)
Definition serve (g : Globals) (app : Application) (request : Request)
  : M Response :=
  match resolve app (method request) (path request) with
  | Some h => call_route_handler g h request
  | None => ret (mkResponse 404 "404: Not Found")
  end.

(** [SimpleRequestHandler(...).register(app, path=...)] *)
Definition SimpleRequestHandler_register (app : Application) (p : string)
  : Application :=
  let app := mkApplication (routes app) (on_startup app)
                           (on_shutdown app ++ [Close_bot_session]) in
  add_route app "POST" p Webhook_handle.

(** [setup_application(app, dp, bot=bot)] *)
Definition setup_application (app : Application) : Application :=
  mkApplication (routes app) (on_startup app ++ [Emit_startup])
                (on_shutdown app ++ [Emit_shutdown]).

(** Lines 36 to 44 of [main]: the application and its routes. *)
Definition make_app : Application :=
  let app := Application_init in
  let app := add_get app "/health" Health_check in
  let app := SimpleRequestHandler_register app "/webhook" in
  setup_application app.

(** [main()] *)
Definition main (g : Globals) : M unit :=
  logging.info ("Starting bot: " +:+ BOT_NAME g) ;;
  let app := make_app in
  match WEBHOOK_URL g with
  | Some (String _ _ as url) =>
      set_webhook (bot g) url true ;;
      logging.info ("Webhook set to: " +:+ url)
  | _ => ret tt
  end ;;
  runner_setup app ;;
  site_start "0.0.0.0" (BOT_PORT g) ;;
  logging.info ("Bot " +:+ BOT_NAME g +:+ " started on port "
                +:+ pretty (BOT_PORT g)) ;;
  try_finally asyncio.Future_await (session_close (bot g)).

Definition int_or_raise (s : string) : M Z :=
  match PyStr.int s with
  | Some n => ret n
  | None => raise ValueError
  end.

(** The top level of the module, lines 9 to 25.  The logging set-up of
    lines 15 and 16 has no outcome the program branches on and is left
    out. *)
Definition load_module (env : gmap string string) : M Globals :=
  let BOT_TOKEN := os.getenv env "BOT_TOKEN" in
  BOT_PORT <- int_or_raise (os.getenv_default env "BOT_PORT" "8080") ;;
  let WEBHOOK_URL := os.getenv env "WEBHOOK_URL" in
  let BOT_NAME := os.getenv_default env "BOT_NAME" "bot" in
  bot <- Bot_init BOT_TOKEN ;;
  let dp := Dispatcher_init in
  let dp := message dp Echo_handler in
  ret (mkGlobals BOT_TOKEN BOT_PORT WEBHOOK_URL BOT_NAME bot dp).

(** The script: the module is loaded, then [asyncio.run(main())]. *)
Definition program (env : gmap string string) : M unit :=
  g <- load_module env ;;
  asyncio.run (main g).

Definition initial_state : St := mkSt NotCreated.

Definition run_program (w : World) (env : gmap string string)
  : Res unit * St * list Event :=
  program env w initial_state.

(** ** Reading a trace *)

Definition is_failed_call (e : Event) : bool :=
  match e with
  | EvBotInit _ false | EvSetWebhook _ _ false => true
  | _ => false
  end.


Fixpoint webhook_calls (tr : list Event) : list (string * bool * bool) :=
  match tr with
  | [] => []
  | EvSetWebhook url d ok :: tr' => (url, d, ok) :: webhook_calls tr'
  | _ :: tr' => webhook_calls tr'
  end.

Fixpoint binds (tr : list Event) : list (string * Z * bool) :=
  match tr with
  | [] => []
  | EvSiteStart h p ok :: tr' => (h, p, ok) :: binds tr'
  | _ :: tr' => binds tr'
  end.

Fixpoint sends (tr : list Event) : list (Z * string * bool) :=
  match tr with
  | [] => []
  | EvSendMessage c t ok :: tr' => (c, t, ok) :: sends tr'
  | _ :: tr' => sends tr'
  end.

Fixpoint bot_inits (tr : list Event) : list (option string * bool) :=
  match tr with
  | [] => []
  | EvBotInit t ok :: tr' => (t, ok) :: bot_inits tr'
  | _ :: tr' => bot_inits tr'
  end.

Fixpoint session_closes (tr : list Event) : nat :=
  match tr with
  | [] => 0%nat
  | EvSessionClose :: tr' => S (session_closes tr')
  | _ :: tr' => session_closes tr'
  end.

Definition reply_texts (tr : list Event) : list string :=
  map (fun c => c.1.2) (sends tr).

(** The registration call of the start-up raised. *)
Definition registration_failed (tr : list Event) : Prop :=
  exists url d, In (url, d, false) (webhook_calls tr).

(** ** Scenarios

    Worlds, environments and module namespaces used to run the program. *)

Definition quiet_world : World :=
  mkWorld (fun _ => true) (fun _ => None) None (fun _ => None)
          (fun _ _ => None) None.

Definition failing_sends : World :=
  mkWorld (fun _ => true) (fun _ => None) None (fun _ => None)
          (fun _ _ => Some TelegramAPIError) None.

Definition registration_refused : World :=
  mkWorld (fun _ => true) (fun _ => Some TelegramAPIError) None
          (fun _ => None) (fun _ _ => None) None.

Definition port_in_use : World :=
  mkWorld (fun _ => true) (fun _ => None) None (fun _ => Some OSError)
          (fun _ _ => None) None.

Definition interrupted : World :=
  mkWorld (fun _ => true) (fun _ => None) None (fun _ => None)
          (fun _ _ => None) (Some CancelledError).

Definition env1 : gmap string string :=
  {[ "BOT_TOKEN" := "1:a"; "WEBHOOK_URL" := "https://h/webhook" ]}.

Definition env_no_url : gmap string string := {[ "BOT_TOKEN" := "1:a" ]}.


Definition globals0 : Globals :=
  mkGlobals (Some "1:a") 8080 None "bot" (mkBot "1:a")
            (message Dispatcher_init Echo_handler).


(** ** Further readings of a trace and of the configuration *)

Fixpoint runner_setups (tr : list Event) : list (Application * bool) :=
  match tr with
  | [] => []
  | EvRunnerSetup app ok :: tr' => (app, ok) :: runner_setups tr'
  | _ :: tr' => runner_setups tr'
  end.

Fixpoint logs (tr : list Event) : list string :=
  match tr with
  | [] => []
  | EvLog msg :: tr' => msg :: logs tr'
  | _ :: tr' => logs tr'
  end.

(** The events of lines 47 to 49 when the registration goes through. *)
Definition registration_events (url : option string) : list Event :=
  match url with
  | Some (String _ _ as u) =>
      [EvSetWebhook u true true; EvLog ("Webhook set to: " +:+ u)]
  | _ => []
  end.



(** The four variables the module reads. *)
Definition config_keys : list string :=
  ["BOT_TOKEN"; "BOT_PORT"; "WEBHOOK_URL"; "BOT_NAME"].

Definition env_noise : gmap string string :=
  {[ "BOT_TOKEN" := "1:a"; "WEBHOOK_URL" := "https://h/webhook";
     "PATH" := "/usr/bin"; "HOME" := "/root" ]}.



Definition token_refused : World :=
  mkWorld (fun _ => false) (fun _ => None) None (fun _ => None)
          (fun _ _ => None) None.

Definition runner_fails : World :=
  mkWorld (fun _ => true) (fun _ => None) (Some RunnerSetupError)
          (fun _ => None) (fun _ _ => None) None.

(** ** Proof support *)

Ltac unfold_program :=
  unfold run_program, program, asyncio.run, load_module, main, int_or_raise,
    os.getenv, Bot_init, set_webhook, create_session,
    runner_setup, site_start, session_close, logging.info,
    asyncio.Future_await, try_finally, outcome, bind, ret, raise, emit, ask,
    get, put, result_of, state_of, trace_of, initial_state in *.

Lemma int_default_port : PyStr.int "8080" = Some 8080.
Proof. reflexivity. Qed.

Example int_accepts :
  PyStr.int "  -1_0 " = Some (-10)
  /\ PyStr.int "+0080" = Some 80
  /\ PyStr.int "65536" = Some 65536.
Proof. repeat split. Qed.

Example int_refuses :
  PyStr.int "" = None
  /\ PyStr.int "http" = None
  /\ PyStr.int "80_" = None
  /\ PyStr.int "8__0" = None
  /\ PyStr.int "_80" = None
  /\ PyStr.int "0x1F" = None
  /\ PyStr.int "8080.0" = None
  /\ PyStr.int "- 1" = None
  /\ PyStr.int "80 80" = None.
Proof. repeat split. Qed.








Arguments PyStr.int : simpl never.
Arguments os.getenv_default : simpl never.

(** One split on an outcome the start-up sequence branches on. *)
Ltac startup_step :=
  match goal with
  | |- context [PyStr.int (os.getenv_default ?env ?k ?d)] =>
      change (os.getenv_default env k d) with (default d (env !! k))
  | |- context [@lookup _ _ _ _ ?k ?env] => destruct (env !! k) eqn:?
  | |- context [PyStr.int "8080"] => rewrite int_default_port
  | |- context [PyStr.int ?s] => destruct (PyStr.int s) eqn:?
  | |- context [token_valid ?w ?t] => destruct (token_valid w t) eqn:?
  | |- context [set_webhook_result ?w ?u] =>
      destruct (set_webhook_result w u) eqn:?
  | |- context [runner_setup_result ?w] =>
      destruct (runner_setup_result w) eqn:?
  | |- context [site_start_result ?w ?p] =>
      destruct (site_start_result w p) eqn:?
  | |- context [wait_result ?w] => destruct (wait_result w) eqn:?
  | |- context [match ?s with EmptyString => _ | String _ _ => _ end] =>
      is_var s; destruct s
  end.

Ltac startup_cases :=
  unfold_program; cbn; repeat (startup_step; cbn); simplify_eq.

(** Rewrites with the outcomes the context already fixes, then splits on
    the others. *)
Ltac use_known :=
  repeat match goal with
    | H : ?t = _ |- context [?t] => rewrite !H; cbn
    end.

Ltac startup_cases_with_context :=
  unfold_program; cbn; use_known;
  repeat (startup_step; cbn; use_known); simplify_eq.

(** ** Text lemmas *)

Lemma str_app_assoc (a b c : string) : (a +:+ b) +:+ c = a +:+ b +:+ c.
Proof.
  induction a as [|x a IH]; [reflexivity|].
  change (String x ((a +:+ b) +:+ c) = String x (a +:+ b +:+ c)).
  now rewrite IH.
Qed.

Lemma str_app_nil_r (a : string) : a +:+ "" = a.
Proof.
  induction a as [|x a IH]; [reflexivity|].
  change (String x (a +:+ "") = String x a). now rewrite IH.
Qed.

Lemma contains_middle (pre s post : string) :
  PyStr.contains s (pre +:+ s +:+ post).
Proof. now exists pre, post. Qed.

Lemma contains_suffix (pre s : string) : PyStr.contains s (pre +:+ s).
Proof. exists pre, "". now rewrite str_app_nil_r. Qed.

Lemma echo_text_some (name t : string) :
  echo_text name (Some t)
  = "🤖 Hello 111 from " +:+ name +:+ "! You said: " +:+ t.
Proof.
  unfold echo_text, greeting. cbn [PyStr.format].
  now rewrite !str_app_assoc.
Qed.

(** ** The echo handler *)

(** The handler is one send through the bot client, nothing else. *)
Lemma echo_handler_is_one_send (g : Globals) (m : Message) :
  echo_handler g m
  = send_message (bot g) (chat_id m) (echo_text (BOT_NAME g) (text m)).
Proof. reflexivity. Qed.

Lemma send_message_run (b : Bot) (c : Z) (t : string) (w : World) (st : St) :
  send_message b c t w st
  = (match send_result w c t with None => Ok tt | Some e => Raise e end,
     mkSt Open,
     [EvSendMessage c t (succeeded (send_result w c t))]).
Proof.
  unfold send_message, create_session, outcome, bind, ask, put, emit, ret,
    raise.
  now destruct (send_result w c t).
Qed.

Lemma echo_handler_run (g : Globals) (m : Message) (w : World) (st : St) :
  echo_handler g m w st
  = (match send_result w (chat_id m) (echo_text (BOT_NAME g) (text m)) with
     | None => Ok tt
     | Some e => Raise e
     end,
     mkSt Open,
     [EvSendMessage (chat_id m) (echo_text (BOT_NAME g) (text m))
        (succeeded (send_result w (chat_id m)
                      (echo_text (BOT_NAME g) (text m))))]).
Proof. rewrite echo_handler_is_one_send. apply send_message_run. Qed.

(** C1: for a message whose text is the non-empty [T] and a configured bot
    name [N], the text the echo handler sends is the greeting template
    "🤖 Hello 111 from N! You said: " followed by [T]; it contains both [N]
    and [T] verbatim. *)
Theorem C1_echo_output (g : Globals) (m : Message) (T : string)
    (w : World) (st : St) :
  text m = Some T ->
  T <> "" ->
  let N := BOT_NAME g in
  let out := "🤖 Hello 111 from " +:+ N +:+ "! You said: " +:+ T in
  reply_texts (trace_of (echo_handler g m w st)) = [out]
  /\ out = greeting N +:+ T
  /\ PyStr.contains N out
  /\ PyStr.contains T out.
Proof.
  intros HT _ N out. rewrite echo_handler_run, HT, echo_text_some.
  repeat split.
  - subst out. unfold greeting. now rewrite !str_app_assoc.
  - apply contains_middle.
  - subst out.
    rewrite <- (str_app_assoc N), <- str_app_assoc. apply contains_suffix.
Qed.

Lemma C1_echo_output_witness :
  reply_texts (trace_of (echo_handler globals0 (mkMessage 7 (Some "hi"))
                           quiet_world initial_state))
  = ["🤖 Hello 111 from bot! You said: hi"].
Proof.
  exact (proj1 (C1_echo_output globals0 (mkMessage 7 (Some "hi")) "hi"
                  quiet_world initial_state eq_refl
                  ltac:(discriminate))).
Defined.

(** C2, as stated, fails: for a message without text the echoed portion is
    the four characters "None", not the empty text. *)
Lemma C2_counterexample :
  reply_texts (trace_of (echo_handler globals0 (mkMessage 7 None)
                           quiet_world initial_state))
  = ["🤖 Hello 111 from bot! You said: None"]
  /\ reply_texts (trace_of (echo_handler globals0 (mkMessage 7 None)
                              quiet_world initial_state))
     <> [greeting "bot" +:+ ""].
Proof. split; [reflexivity | discriminate]. Qed.

(** C2 (amended): for a message whose text is empty or absent the handler
    raises nothing of its own (it ends as its single send call ends) and
    sends the greeting followed by the empty text when the text is empty,
    and by "None" when the text is absent. *)
Theorem C2_empty_or_absent_text (g : Globals) (m : Message)
    (w : World) (st : St) :
  text m = None \/ text m = Some "" ->
  let echoed := match text m with None => "None" | Some _ => "" end in
  let out := greeting (BOT_NAME g) +:+ echoed in
  sends (trace_of (echo_handler g m w st))
  = [(chat_id m, out, succeeded (send_result w (chat_id m) out))]
  /\ result_of (echo_handler g m w st)
     = match send_result w (chat_id m) out with
       | None => Ok tt
       | Some e => Raise e
       end.
Proof.
  intros H echoed out. rewrite echo_handler_run.
  assert (echo_text (BOT_NAME g) (text m) = out) as ->.
  { subst out echoed. unfold echo_text. now destruct H as [-> | ->]. }
  now split.
Qed.

Lemma C2_empty_or_absent_text_witness :
  sends (trace_of (echo_handler globals0 (mkMessage 7 (Some ""))
                     quiet_world initial_state))
  = [(7, "🤖 Hello 111 from bot! You said: ", true)]
  /\ sends (trace_of (echo_handler globals0 (mkMessage 7 None)
                        quiet_world initial_state))
     = [(7, "🤖 Hello 111 from bot! You said: None", true)].
Proof.
  split.
  - exact (proj1 (C2_empty_or_absent_text globals0 (mkMessage 7 (Some ""))
                    quiet_world initial_state (or_intror eq_refl))).
  - exact (proj1 (C2_empty_or_absent_text globals0 (mkMessage 7 None)
                    quiet_world initial_state (or_introl eq_refl))).
Defined.

(** C8: a message handed to the echo handler produces exactly one reply,
    addressed to the chat the message came from: one send call per message,
    both when the handler is called directly and when the message reaches it
    through the dispatcher of the loaded module. *)
Theorem C8_one_reply_per_message (g : Globals) (m : Message)
    (w : World) (st : St) :
  message_handlers (dp g) = [Echo_handler] ->
  let out := echo_text (BOT_NAME g) (text m) in
  let reply := (chat_id m, out, succeeded (send_result w (chat_id m) out)) in
  sends (trace_of (echo_handler g m w st)) = [reply]
  /\ trace_of (echo_handler g m w st)
     = [EvSendMessage (chat_id m) out
          (succeeded (send_result w (chat_id m) out))]
  /\ sends (trace_of (feed_update g (UpdMessage m) w st)) = [reply].
Proof.
  intros Hdp out reply. unfold feed_update. rewrite Hdp.
  cbn [call_message_handler]. rewrite echo_handler_run. now repeat split.
Qed.

Lemma C8_one_reply_per_message_witness :
  sends (trace_of (feed_update globals0 (UpdMessage (mkMessage 7 (Some "hi")))
                     quiet_world initial_state))
  = [(7, "🤖 Hello 111 from bot! You said: hi", true)].
Proof.
  exact (proj2 (proj2 (C8_one_reply_per_message globals0
                         (mkMessage 7 (Some "hi")) quiet_world initial_state
                         eq_refl))).
Defined.



(** ** The health endpoint *)

Lemma resolve_health : resolve make_app "GET" "/health" = Some Health_check.
Proof. reflexivity. Qed.

(** C3: a GET on /health is routed to [health_check], which answers status
    200 with body "OK", leaves the state as it is, issues no call and logs
    nothing, for every world, state, module namespace and request. *)
Theorem C3_health_ok (g : Globals) (w : World) (st : St)
    (u : option Update) (rq : Request) :
  serve g make_app (mkRequest "GET" "/health" u) w st
  = (Ok (mkResponse 200 "OK"), st, [])
  /\ health_check g rq w st = (Ok (mkResponse 200 "OK"), st, []).
Proof. split; reflexivity. Qed.

(** ** Start-up *)


Example run_interrupted :
  run_program interrupted env_no_url
  = (Raise CancelledError, mkSt NotCreated,
     [EvBotInit (Some "1:a") true; EvLog "Starting bot: bot";
      EvRunnerSetup make_app true; EvSiteStart "0.0.0.0" 8080 true;
      EvLog "Bot bot started on port 8080"; EvSessionClose]).
Proof. vm_compute. reflexivity. Qed.

(** The module's dispatcher holds the echo handler and nothing else. *)
Lemma load_module_dp (w : World) (env : gmap string string)
    (st st' : St) (g : Globals) (tr : list Event) :
  load_module env w st = (Ok g, st', tr) ->
  message_handlers (dp g) = [Echo_handler].
Proof.
  startup_cases; intros Hload; now simplify_eq.
Qed.




(** C5: with WEBHOOK_URL unset the start-up makes no registration call.
    When the module loads (valid token, parsable port) and the runner sets
    up, the process still binds 0.0.0.0 on its port, exactly once, with the
    application whose GET /health answers 200 "OK"; once the bind succeeds
    it stays up until something ends its wait. *)
Theorem C5_no_url_no_registration (w : World) (env : gmap string string) :
  env !! "WEBHOOK_URL" = None ->
  let r := run_program w env in
  webhook_calls (trace_of r) = []
  /\ forall tok port,
       env !! "BOT_TOKEN" = Some tok ->
       token_valid w tok = true ->
       PyStr.int (os.getenv_default env "BOT_PORT" "8080") = Some port ->
       runner_setup_result w = None ->
       binds (trace_of r)
       = [("0.0.0.0", port, succeeded (site_start_result w port))]
       /\ In (EvRunnerSetup make_app true) (trace_of r)
       /\ resolve make_app "GET" "/health" = Some Health_check
       /\ (forall g st u,
             serve g make_app (mkRequest "GET" "/health" u) w st
             = (Ok (mkResponse 200 "OK"), st, []))
       /\ (site_start_result w port = None ->
           result_of r = match wait_result w with
                         | None => Forever
                         | Some e => Raise e
                         end).
Proof.
  intros Hurl r. subst r. split.
  - startup_cases_with_context; reflexivity.
  - intros tok port Htok Hvalid Hport Hsetup.
    startup_cases_with_context.
    all: cbn; intuition congruence.
Qed.

Lemma C5_no_url_no_registration_witness :
  webhook_calls (trace_of (run_program quiet_world env_no_url)) = []
  /\ binds (trace_of (run_program quiet_world env_no_url))
     = [("0.0.0.0", 8080, true)].
Proof.
  assert (H : env_no_url !! "WEBHOOK_URL" = None) by (vm_compute; reflexivity).
  split.
  - exact (proj1 (C5_no_url_no_registration quiet_world env_no_url H)).
  - refine (proj1 (proj2 (C5_no_url_no_registration quiet_world env_no_url H)
                     "1:a" 8080 _ _ _ _)); vm_compute; reflexivity.
Defined.

(** C6: when BOT_TOKEN is absent, or when the registration call fails, the
    script ends with exit status 1: no port is bound and no runner is set
    up, the bot is built at most once and the registration is called at
    most once, and nothing follows the call that failed. *)
Theorem C6_fail_fast (w : World) (env : gmap string string) :
  env !! "BOT_TOKEN" = None
  \/ registration_failed (trace_of (run_program w env)) ->
  let r := run_program w env in
  exit_status (result_of r) = Some 1
  /\ exit_status (result_of r) <> Some 0
  /\ binds (trace_of r) = []
  /\ (forall app ok, ~ In (EvRunnerSetup app ok) (trace_of r))
  /\ (length (bot_inits (trace_of r)) <= 1)%nat
  /\ (length (webhook_calls (trace_of r)) <= 1)%nat
  /\ (trace_of r = []
      \/ exists e, last (trace_of r) = Some e /\ is_failed_call e = true).
Proof.
  intros H r. subst r. revert H. unfold registration_failed.
  startup_cases; cbn.
  all: intros [Htok | (u & d & Hin)]; simplify_eq; cbn in *.
  all: try (destruct Hin as [Hin | []]; simplify_eq).
  all: repeat split; try discriminate; try lia.
  all: try (intros ? ? Hev; cbn in Hev; intuition discriminate).
  all: first [ now left | right; eexists; split; reflexivity ].
Qed.

Lemma C6_fail_fast_witness :
  exit_status (result_of (run_program quiet_world ∅)) = Some 1
  /\ exit_status (result_of (run_program registration_refused env1)) = Some 1.
Proof.
  split.
  - refine (proj1 (C6_fail_fast quiet_world ∅ (or_introl _))).
    vm_compute. reflexivity.
  - refine (proj1 (C6_fail_fast registration_refused env1 (or_intror _))).
    exists "https://h/webhook", true. vm_compute. left. reflexivity.
Defined.

(** ** Release of the bot's session *)


(** A start-up that raises after the registration call ends the script with
    the session still open: the [finally] block is not entered. *)
Lemma startup_failure_keeps_session (w : World) (env : gmap string string) :
  webhook_calls (trace_of (run_program w env)) <> [] ->
  Forall (fun b => b.2 = false) (binds (trace_of (run_program w env))) ->
  exit_status (result_of (run_program w env)) = Some 1
  /\ state_of (run_program w env) = mkSt Open
  /\ session_closes (trace_of (run_program w env)) = 0%nat.
Proof.
  startup_cases; cbn; intros Hcalls Hbinds; try done.
  all: try (inversion Hbinds; subst; cbn in *; discriminate).
Qed.

(** C7, at the failing input: the platform refuses the registration, the
    script ends with exit status 1, the session opened for the call is
    still open and [bot.session.close()] was never called. *)
Theorem C7_session_left_open :
  run_program registration_refused env1
  = (Raise TelegramAPIError, mkSt Open,
     [EvBotInit (Some "1:a") true; EvLog "Starting bot: bot";
      EvSetWebhook "https://h/webhook" true false])
  /\ exit_status (result_of (run_program registration_refused env1)) = Some 1
  /\ session (state_of (run_program registration_refused env1)) = Open
  /\ session_closes (trace_of (run_program registration_refused env1)) = 0%nat
  /\ session (state_of (run_program port_in_use env1)) = Open
  /\ session_closes (trace_of (run_program port_in_use env1)) = 0%nat
  /\ result_of (run_program port_in_use env1) = Raise OSError.
Proof. vm_compute. repeat split; reflexivity. Qed.

(** ** Configuration *)



(** * Further properties of the module *)

(** ** Configuration *)

(** X1: an empty WEBHOOK_URL is the same as none: the test of line 47 is a
    truth test, so the script runs exactly as with the variable unset. *)
Theorem empty_url_is_unset (w : World) (env : gmap string string) :
  run_program w (<["WEBHOOK_URL" := ""]> env)
  = run_program w (delete "WEBHOOK_URL" env).
Proof.
  unfold_program. unfold os.getenv_default.
  rewrite lookup_insert_eq, lookup_delete_eq.
  rewrite !lookup_insert_ne, !lookup_delete_ne by discriminate.
  cbn. repeat (startup_step; cbn); reflexivity.
Qed.

(** X2: the script reads BOT_TOKEN, BOT_PORT, WEBHOOK_URL and BOT_NAME and
    nothing else of the environment: two environments that agree on these
    four give the same run. *)
Theorem only_config_keys_matter (w : World) (env env' : gmap string string) :
  Forall (fun k => env !! k = env' !! k) config_keys ->
  run_program w env = run_program w env'.
Proof.
  unfold config_keys. rewrite !Forall_cons.
  intros (Htok & Hport & Hurl & Hname & _).
  unfold_program. unfold os.getenv_default.
  now rewrite Htok, Hport, Hurl, Hname.
Qed.

Lemma only_config_keys_matter_witness :
  run_program registration_refused env1
  = run_program registration_refused env_noise.
Proof.
  apply (only_config_keys_matter registration_refused env1 env_noise).
  unfold config_keys. repeat constructor; vm_compute; reflexivity.
Defined.

(** ** The start-up sequence *)

(** X3: a start-up whose bind succeeded went through every step once and
    in this order: the bot is built, the start is logged, the URL (when
    there is one) is registered and the registration logged, the runner is
    set up with the application of [main], 0.0.0.0 is bound on the parsed
    BOT_PORT and the port is logged; the session is closed afterwards when
    something ends the wait. *)
Theorem successful_startup_trace (w : World) (env : gmap string string)
    (h : string) (p : Z) :
  In (h, p, true) (binds (trace_of (run_program w env))) ->
  let name := os.getenv_default env "BOT_NAME" "bot" in
  exists tok,
    env !! "BOT_TOKEN" = Some tok
    /\ token_valid w tok = true
    /\ PyStr.int (os.getenv_default env "BOT_PORT" "8080") = Some p
    /\ h = "0.0.0.0"
    /\ trace_of (run_program w env)
       = ([EvBotInit (Some tok) true; EvLog ("Starting bot: " +:+ name)]
          ++ registration_events (env !! "WEBHOOK_URL")
          ++ [EvRunnerSetup make_app true; EvSiteStart "0.0.0.0" p true;
              EvLog ("Bot " +:+ name +:+ " started on port " +:+ pretty p)]
          ++ match wait_result w with
             | None => []
             | Some _ => [EvSessionClose]
             end)%list.
Proof.
  intros Hin name. subst name. revert Hin.
  startup_cases; cbn; intros Hin; try contradiction.
  all: destruct Hin as [Hin | []]; simplify_eq.
  all: eexists; repeat split; first [reflexivity | eassumption].
Qed.

Lemma successful_startup_trace_witness :
  exists tok,
    env1 !! "BOT_TOKEN" = Some tok
    /\ token_valid quiet_world tok = true
    /\ PyStr.int (os.getenv_default env1 "BOT_PORT" "8080") = Some 8080
    /\ "0.0.0.0" = "0.0.0.0"
    /\ trace_of (run_program quiet_world env1)
       = ([EvBotInit (Some tok) true;
           EvLog ("Starting bot: " +:+ os.getenv_default env1 "BOT_NAME" "bot")]
          ++ registration_events (env1 !! "WEBHOOK_URL")
          ++ [EvRunnerSetup make_app true; EvSiteStart "0.0.0.0" 8080 true;
              EvLog ("Bot " +:+ os.getenv_default env1 "BOT_NAME" "bot"
                     +:+ " started on port " +:+ pretty 8080)]
          ++ match wait_result quiet_world with
             | None => []
             | Some _ => [EvSessionClose]
             end)%list.
Proof.
  apply (successful_startup_trace quiet_world env1 "0.0.0.0" 8080).
  vm_compute. left. reflexivity.
Defined.


(** X5: no step of the start-up is repeated and the start-up sends no chat
    message: in every run the bot is built at most once, and the
    registration, the runner set-up, the bind and the closing of the session
    are each called at most once. *)
Theorem startup_calls_at_most_once (w : World) (env : gmap string string) :
  let tr := trace_of (run_program w env) in
  (length (bot_inits tr) <= 1)%nat
  /\ (length (webhook_calls tr) <= 1)%nat
  /\ (length (runner_setups tr) <= 1)%nat
  /\ (length (binds tr) <= 1)%nat
  /\ (session_closes tr <= 1)%nat
  /\ sends tr = [].
Proof.
  cbv zeta. startup_cases; cbn; repeat split; lia.
Qed.


(** X7: a BOT_TOKEN the bot constructor refuses ends the script at module
    load with TokenValidationError, provided the port parsed: the refused
    construction is the only event, and no log line, registration, runner
    or bind follows. *)
Theorem refused_token_is_fatal (w : World) (env : gmap string string)
    (tok : string) (port : Z) :
  env !! "BOT_TOKEN" = Some tok ->
  token_valid w tok = false ->
  PyStr.int (os.getenv_default env "BOT_PORT" "8080") = Some port ->
  run_program w env
  = (Raise TokenValidationError, initial_state, [EvBotInit (Some tok) false]).
Proof.
  intros Htok Hvalid Hport. unfold_program. cbn.
  rewrite Hport, Htok. cbn. rewrite Hvalid. reflexivity.
Qed.

Lemma refused_token_is_fatal_witness :
  run_program token_refused env1
  = (Raise TokenValidationError, initial_state,
     [EvBotInit (Some "1:a") false]).
Proof.
  apply (refused_token_is_fatal token_refused env1 "1:a" 8080);
    vm_compute; reflexivity.
Defined.

(** X8: a bind that fails is fatal and is the last thing the script does:
    the exception of [site.start()] leaves the script, the port is not
    logged as started, and [bot.session.close()] is not called. *)
Theorem failed_bind_is_fatal (w : World) (env : gmap string string)
    (h : string) (p : Z) :
  In (h, p, false) (binds (trace_of (run_program w env))) ->
  let r := run_program w env in
  exists e,
    site_start_result w p = Some e
    /\ result_of r = Raise e
    /\ last (trace_of r) = Some (EvSiteStart "0.0.0.0" p false)
    /\ session_closes (trace_of r) = 0%nat
    /\ logs (trace_of r)
       = ("Starting bot: " +:+ os.getenv_default env "BOT_NAME" "bot")
         :: logs (registration_events (env !! "WEBHOOK_URL")).
Proof.
  cbv zeta. startup_cases; cbn; intros Hin; try contradiction.
  all: destruct Hin as [Hin | []]; simplify_eq.
  all: eexists; repeat split; first [eassumption | reflexivity].
Qed.

Lemma failed_bind_is_fatal_witness :
  exists e,
    site_start_result port_in_use 8080 = Some e
    /\ result_of (run_program port_in_use env1) = Raise e
    /\ last (trace_of (run_program port_in_use env1))
       = Some (EvSiteStart "0.0.0.0" 8080 false)
    /\ session_closes (trace_of (run_program port_in_use env1)) = 0%nat
    /\ logs (trace_of (run_program port_in_use env1))
       = ("Starting bot: " +:+ os.getenv_default env1 "BOT_NAME" "bot")
         :: logs (registration_events (env1 !! "WEBHOOK_URL")).
Proof.
  apply (failed_bind_is_fatal port_in_use env1 "0.0.0.0" 8080).
  vm_compute. left. reflexivity.
Defined.

(** X9: a runner set-up that fails is fatal before any bind: the exception
    of [runner.setup()] leaves the script, the failed set-up is the last
    event, and no port was bound. *)
Theorem failed_runner_setup_is_fatal (w : World) (env : gmap string string)
    (app : Application) :
  In (app, false) (runner_setups (trace_of (run_program w env))) ->
  let r := run_program w env in
  exists e,
    runner_setup_result w = Some e
    /\ result_of r = Raise e
    /\ app = make_app
    /\ last (trace_of r) = Some (EvRunnerSetup make_app false)
    /\ binds (trace_of r) = []
    /\ session_closes (trace_of r) = 0%nat.
Proof.
  cbv zeta. startup_cases; cbn; intros Hin; try contradiction.
  all: destruct Hin as [Hin | []]; simplify_eq.
  all: eexists; repeat split; reflexivity.
Qed.

Lemma failed_runner_setup_is_fatal_witness :
  exists e,
    runner_setup_result runner_fails = Some e
    /\ result_of (run_program runner_fails env1) = Raise e
    /\ make_app = make_app
    /\ last (trace_of (run_program runner_fails env1))
       = Some (EvRunnerSetup make_app false)
    /\ binds (trace_of (run_program runner_fails env1)) = []
    /\ session_closes (trace_of (run_program runner_fails env1)) = 0%nat.
Proof.
  apply (failed_runner_setup_is_fatal runner_fails env1 make_app).
  vm_compute. left. reflexivity.
Defined.

Lemma start_line_is_not_webhook_line (a b : string) :
  "Starting bot: " +:+ a <> "Webhook set to: " +:+ b.
Proof.
  change ("Starting bot: " +:+ a) with (String "S" ("tarting bot: " +:+ a)).
  change ("Webhook set to: " +:+ b)
    with (String "W" ("ebhook set to: " +:+ b)).
  discriminate.
Qed.

Lemma started_line_is_not_webhook_line (a b : string) :
  "Bot " +:+ a <> "Webhook set to: " +:+ b.
Proof.
  change ("Bot " +:+ a) with (String "B" ("ot " +:+ a)).
  change ("Webhook set to: " +:+ b)
    with (String "W" ("ebhook set to: " +:+ b)).
  discriminate.
Qed.

(** X10: the registration is logged exactly when it went through: the line
    "Webhook set to: URL" is in the log if and only if the registration of
    URL was called and succeeded. *)
Theorem webhook_logged_iff_registered (w : World) (env : gmap string string)
    (url : string) :
  let tr := trace_of (run_program w env) in
  In ("Webhook set to: " +:+ url) (logs tr)
  <-> In (url, true, true) (webhook_calls tr).
Proof.
  cbv zeta. startup_cases; cbn.
  all: split; intros H;
    repeat match goal with
      | H : _ \/ _ |- _ => destruct H as [H | H]
      | H : False |- _ => destruct H
      end.
  all: try (now apply start_line_is_not_webhook_line in H).
  all: try (now apply started_line_is_not_webhook_line in H).
  all: try (apply (inj (String.app "Webhook set to: ")) in H; subst; auto).
  all: try (simplify_eq; auto).
Qed.

(** ** The port *)











(** ** Replies *)

(** X12: the reply tells the text apart, up to the way an absent text is
    written: two messages get the same reply exactly when their texts are
    formatted alike, so two texts that differ get replies that differ, while
    a message without text gets the reply of a message that says "None".
    The reply is never empty. *)
Theorem reply_determines_text (g : Globals) (m1 m2 : Message)
    (w1 w2 : World) (st1 st2 : St) :
  (reply_texts (trace_of (echo_handler g m1 w1 st1))
   = reply_texts (trace_of (echo_handler g m2 w2 st2))
   <-> PyStr.format (text m1) = PyStr.format (text m2))
  /\ (forall T1 T2,
        text m1 = Some T1 -> text m2 = Some T2 ->
        reply_texts (trace_of (echo_handler g m1 w1 st1))
        = reply_texts (trace_of (echo_handler g m2 w2 st2)) ->
        T1 = T2)
  /\ (text m1 = None -> text m2 = Some "None" ->
      reply_texts (trace_of (echo_handler g m1 w1 st1))
      = reply_texts (trace_of (echo_handler g m2 w2 st2)))
  /\ reply_texts (trace_of (echo_handler g m1 w1 st1)) <> [""].
Proof.
  rewrite !echo_handler_run. cbn. unfold echo_text.
  assert (Hiff : [greeting (BOT_NAME g) +:+ PyStr.format (text m1)]
                 = [greeting (BOT_NAME g) +:+ PyStr.format (text m2)]
                 <-> PyStr.format (text m1) = PyStr.format (text m2)).
  { split; [|now intros ->].
    intros H. apply (f_equal (List.hd "")) in H. cbn [List.hd] in H.
    now apply (inj (String.app (greeting (BOT_NAME g)))) in H. }
  split; [exact Hiff|]. split; [|split].
  - intros T1 T2 H1 H2 H. apply Hiff in H. rewrite H1, H2 in H. exact H.
  - intros H1 H2. apply Hiff. now rewrite H1, H2.
  - intros H. apply (f_equal (List.hd "")) in H. cbn [List.hd] in H.
    revert H. unfold greeting. rewrite str_app_assoc. discriminate.
Qed.

Lemma reply_determines_text_witness :
  reply_texts (trace_of (echo_handler globals0 (mkMessage 7 None)
                           quiet_world initial_state))
  = reply_texts (trace_of (echo_handler globals0 (mkMessage 8 (Some "None"))
                             failing_sends (mkSt Open))).
Proof.
  exact (proj1 (proj2 (proj2 (reply_determines_text globals0
           (mkMessage 7 None) (mkMessage 8 (Some "None"))
           quiet_world failing_sends initial_state (mkSt Open))))
           eq_refl eq_refl).
Defined.

(** ** The HTTP surface *)

(** X13: the routes of the application [main] builds are HEAD and GET on
    /health, answered by [health_check], and POST on /webhook, answered by
    the webhook handler; no other method and path has a handler. *)
Theorem routes_of_main (m p : string) (h : RouteHandler) :
  resolve make_app m p = Some h
  <-> ((m = "HEAD" \/ m = "GET") /\ p = "/health" /\ h = Health_check)
      \/ (m = "POST" /\ p = "/webhook" /\ h = Webhook_handle).
Proof.
  unfold resolve, make_app. cbn -[String.eqb].
  destruct (String.eqb_spec "HEAD" m) as [Hhead | Hhead];
    destruct (String.eqb_spec "GET" m) as [Hget | Hget];
    destruct (String.eqb_spec "POST" m) as [Hpost | Hpost];
    destruct (String.eqb_spec "/health" p) as [Hhealth | Hhealth];
    destruct (String.eqb_spec "/webhook" p) as [Hwebhook | Hwebhook];
    try congruence; cbn -[String.eqb].
  all: split;
    [ intros H; simplify_eq
    | intros [[[? | ?] [? ?]] | [? [? ?]]]; subst; try done ].
  all: first [ left; repeat split; auto; fail | right; repeat split; auto ].
Qed.

(** X14: a POST on /webhook that carries a message is answered 200 and
    makes the echo handler reply once, to the chat of the message; the
    answer is 200 also when the send fails.  An update that is not a message
    is answered 200 with nothing sent and the state untouched. *)
Theorem webhook_post (g : Globals) (m : Message) (w : World) (st : St) :
  message_handlers (dp g) = [Echo_handler] ->
  let out := echo_text (BOT_NAME g) (text m) in
  serve g make_app (mkRequest "POST" "/webhook" (Some (UpdMessage m))) w st
  = (Ok (mkResponse 200 "{}"), mkSt Open,
     [EvSendMessage (chat_id m) out
        (succeeded (send_result w (chat_id m) out))])
  /\ serve g make_app (mkRequest "POST" "/webhook" (Some UpdOther)) w st
     = (Ok (mkResponse 200 "{}"), st, []).
Proof.
  intros Hdp out. subst out. split; [|reflexivity].
  unfold serve. cbn -[webhook_handle].
  unfold webhook_handle, create_task, bind, feed_update.
  cbn -[echo_handler]. rewrite Hdp. cbn -[echo_handler].
  rewrite echo_handler_run.
  now destruct (send_result w (chat_id m) _).
Qed.

Lemma webhook_post_witness :
  serve globals0 make_app
    (mkRequest "POST" "/webhook" (Some (UpdMessage (mkMessage 7 (Some "hi")))))
    failing_sends initial_state
  = (Ok (mkResponse 200 "{}"), mkSt Open,
     [EvSendMessage 7 "🤖 Hello 111 from bot! You said: hi" false]).
Proof.
  exact (proj1 (webhook_post globals0 (mkMessage 7 (Some "hi")) failing_sends
                  initial_state eq_refl)).
Defined.

